(** * ugali/analysis/model.py: Model and Parameter

    A shallow embedding of the two classes of [analysis/model.py] and the
    properties of their attribute dispatch and bounds-checked values.

    Conventions of the embedding.
    - Python numbers are modelled by the unbounded integers [Z] (Python's
      [int]/[long]); floats are outside the model.
    - The module is Python 2 code ([long], [__cmp__], [__nonzero__],
      [__div__]), and the mixed-type comparisons below follow CPython 2.
    - A raising call returns [Raise e]; a call that mutates and may raise
      returns the outcome together with the state it leaves behind.
    - [odict] is an association list: insertion order matters for it. *)

From stdpp Require Import base option list strings gmap.
From Stdlib Require Import ZArith Lia DecimalString.

Local Open Scope string_scope.
Local Open Scope Z_scope.

(** ** Exceptions and outcomes *)

(** The text of the bounds error is
    ["Value outside bounds: %.2g [%.2g,%.2g]" % (value, lo, hi)].  The
    rendering of [%.2g] is float formatting; the message is kept as the
    format with its three arguments. *)
Inductive value_msg :=
| OutsideBounds (value lower upper : Z)
| NegativeShiftCount.

Inductive exn :=
| AttributeError (name : string)
| ValueError (msg : value_msg)
| TypeError (msg : string)
| KeyError (name : string)
| ZeroDivisionError
| RuntimeError (msg : string).

Inductive res (A : Type) :=
| Ok (a : A)
| Raise (e : exn).
Arguments Ok {A} a.
Arguments Raise {A} e.

Definition res_bind {A B} (r : res A) (k : A → res B) : res B :=
  match r with Ok a => k a | Raise e => Raise e end.

(** ** class Parameter *)

(** [__value__] and [__bounds__] start as the class attributes [None]. *)
Record parameter := mkParameter {
  __value__ : option Z;
  __bounds__ : option (Z * Z)
}.

(** The values a caller can hand to [set_value]: a number, another
    Parameter, or something else.  A string and [None] stand for the
    objects without a numeric protocol; [VClassAttr] is an object found on
    the class (a method, a mapping, a property).  [VDecimal z] is a
    numeric object of value [z] that is no [int], [long] or [float] and no
    Parameter (a [decimal.Decimal], a [fractions.Fraction], a numpy
    scalar): it orders against numbers by its value and converts to
    [float], but fails both [isinstance] tests. *)
Inductive pyval :=
| VNum (z : Z)
| VParam (q : parameter)
| VStr (s : string)
| VNone
| VClassAttr (name : string)
| VDecimal (z : Z).

Module Param.

(** The object before [__init__] has run. *)
Definition blank : parameter := mkParameter None None.

Definition bounds (self : parameter) : option (Z * Z) := __bounds__ self.
Definition value (self : parameter) : option Z := __value__ self.

(** [if bounds is None: return / else: self.__bounds__ = bounds] *)
Definition set_bounds (self : parameter) (bounds : option (Z * Z)) : parameter :=
  match bounds with
  | None => self
  | Some b => mkParameter (__value__ self) (Some b)
  end.

(** [lo <= value] for a bound [lo] and an arbitrary [value].  A
    Parameter answers through its reflected [__ge__], and so does a
    numeric object such as a Decimal; CPython 2 orders [None] below every
    number and every number below a string or any other object. *)
Definition le_bound_val (lo : Z) (v : pyval) : bool :=
  match v with
  | VNum z => lo <=? z
  | VParam q => match __value__ q with Some z => z >=? lo | None => false end
  | VNone => false
  | VStr _ | VClassAttr _ => true
  | VDecimal z => z >=? lo
  end.

(** [value <= hi], the other half of the chained comparison. *)
Definition le_val_bound (v : pyval) (hi : Z) : bool :=
  match v with
  | VNum z => z <=? hi
  | VParam q => match __value__ q with Some z => z <=? hi | None => true end
  | VNone => true
  | VStr _ | VClassAttr _ => false
  | VDecimal z => z <=? hi
  end.

(** The first argument of the [%.2g] format: a number, a Parameter
    through its [__float__], or a numeric object through its own
    conversion to float; for anything else the formatting itself raises
    [TypeError: float argument required, not <type>] (the type name at the
    end of that message is left out). *)
Definition float_arg (v : pyval) : res Z :=
  match v with
  | VNum z => Ok z
  | VParam q =>
      match __value__ q with
      | Some z => Ok z
      | None => Raise (TypeError "float argument required")
      end
  | VDecimal z => Ok z
  | VStr _ | VNone | VClassAttr _ => Raise (TypeError "float argument required")
  end.

(** [check_bounds]: returns normally ([Ok tt]) or raises. *)
Definition check_bounds (self : parameter) (value : pyval) : res unit :=
  match __bounds__ self with
  | None => Ok tt
  | Some (lo, hi) =>
      if negb (le_bound_val lo value && le_val_bound value hi) then
        res_bind (float_arg value) (λ v, Raise (ValueError (OutsideBounds v lo hi)))
      else Ok tt
  end.

(** [set_value]: bounds check, then the [isinstance] dispatch. *)
Definition set_value (self : parameter) (value : pyval) : res parameter :=
  res_bind (check_bounds self value) (λ _,
    match value with
    | VNum z => Ok (mkParameter (Some z) (__bounds__ self))
    | VParam q => Ok (mkParameter (__value__ q) (__bounds__ self))
    | VStr _ | VNone | VClassAttr _ | VDecimal _ =>
        Raise (TypeError "Numeric type required")
    end).

(** [set]: bounds first, then the value.  When [set_value] raises, the
    new bounds have already been stored; the outcome carries no object
    then, the state left behind is [set_bounds self bounds]. *)
Definition set (self : parameter) (value : pyval) (bounds : option (Z * Z))
  : res parameter :=
  set_value (set_bounds self bounds) value.

(** [Parameter(value, bounds)] *)
Definition __init__ (value : pyval) (bounds : option (Z * Z)) : res parameter :=
  set blank value bounds.

(** *** Numeric protocol

    Python's own operations on [int], the "native" side. *)
Definition py_cmp (a b : Z) : Z :=
  if a =? b then 0 else if a >? b then 1 else -1.
Definition py_floordiv (a b : Z) : res Z :=
  if b =? 0 then Raise ZeroDivisionError else Ok (a `div` b).
Definition py_mod (a b : Z) : res Z :=
  if b =? 0 then Raise ZeroDivisionError else Ok (a `mod` b).
Definition py_divmod (a b : Z) : res (Z * Z) :=
  if b =? 0 then Raise ZeroDivisionError else Ok (a `div` b, a `mod` b).
Definition py_lshift (a b : Z) : res Z :=
  if b <? 0 then Raise (ValueError NegativeShiftCount) else Ok (Z.shiftl a b).
Definition py_rshift (a b : Z) : res Z :=
  if b <? 0 then Raise (ValueError NegativeShiftCount) else Ok (Z.shiftr a b).

(** The wrapped number of a constructed Parameter; an operator applied
    to the [None] of an object that was never set is a [TypeError]. *)
Definition inner (self : parameter) : res Z :=
  match __value__ self with
  | Some v => Ok v
  | None => Raise (TypeError "unsupported operand type(s)")
  end.

(** Comparison methods. *)
Definition __eq__ (self : parameter) (x : Z) : res bool :=
  res_bind (inner self) (λ v, Ok (v =? x)).
Definition __ne__ (self : parameter) (x : Z) : res bool :=
  res_bind (inner self) (λ v, Ok (negb (v =? x))).
Definition __lt__ (self : parameter) (x : Z) : res bool :=
  res_bind (inner self) (λ v, Ok (v <? x)).
Definition __gt__ (self : parameter) (x : Z) : res bool :=
  res_bind (inner self) (λ v, Ok (v >? x)).
Definition __le__ (self : parameter) (x : Z) : res bool :=
  res_bind (inner self) (λ v, Ok (v <=? x)).
Definition __ge__ (self : parameter) (x : Z) : res bool :=
  res_bind (inner self) (λ v, Ok (v >=? x)).
(** [return 0 if self.__value__ == x else 1 if self.__value__ > 0 else -1] *)
Definition __cmp__ (self : parameter) (x : Z) : res Z :=
  res_bind (inner self) (λ v,
    Ok (if v =? x then 0 else if v >? 0 then 1 else -1)).

(** Unary operations. *)
Definition __pos__ (self : parameter) : res Z := inner self.
Definition __neg__ (self : parameter) : res Z :=
  res_bind (inner self) (λ v, Ok (- v)).
Definition __abs__ (self : parameter) : res Z :=
  res_bind (inner self) (λ v, Ok (Z.abs v)).
Definition __invert__ (self : parameter) : res Z :=
  res_bind (inner self) (λ v, Ok (Z.lnot v)).

(** Arithmetic binary operations ([/] on two ints is [//] in Python 2). *)
Definition __add__ (self : parameter) (x : Z) : res Z :=
  res_bind (inner self) (λ v, Ok (v + x)).
Definition __sub__ (self : parameter) (x : Z) : res Z :=
  res_bind (inner self) (λ v, Ok (v - x)).
Definition __mul__ (self : parameter) (x : Z) : res Z :=
  res_bind (inner self) (λ v, Ok (v * x)).
Definition __div__ (self : parameter) (x : Z) : res Z :=
  res_bind (inner self) (λ v, py_floordiv v x).
Definition __mod__ (self : parameter) (x : Z) : res Z :=
  res_bind (inner self) (λ v, py_mod v x).
Definition __floordiv__ (self : parameter) (x : Z) : res Z :=
  res_bind (inner self) (λ v, py_floordiv v x).
Definition __divmod__ (self : parameter) (x : Z) : res (Z * Z) :=
  res_bind (inner self) (λ v, py_divmod v x).

(** Reflected arithmetic binary operations. *)
Definition __radd__ (self : parameter) (x : Z) : res Z :=
  res_bind (inner self) (λ v, Ok (x + v)).
Definition __rsub__ (self : parameter) (x : Z) : res Z :=
  res_bind (inner self) (λ v, Ok (x - v)).
Definition __rmul__ (self : parameter) (x : Z) : res Z :=
  res_bind (inner self) (λ v, Ok (x * v)).
Definition __rdiv__ (self : parameter) (x : Z) : res Z :=
  res_bind (inner self) (λ v, py_floordiv x v).
Definition __rmod__ (self : parameter) (x : Z) : res Z :=
  res_bind (inner self) (λ v, py_mod x v).
Definition __rfloordiv__ (self : parameter) (x : Z) : res Z :=
  res_bind (inner self) (λ v, py_floordiv x v).
Definition __rdivmod__ (self : parameter) (x : Z) : res (Z * Z) :=
  res_bind (inner self) (λ v, py_divmod x v).

(** Bitwise binary operations and their reflected forms. *)
Definition __and__ (self : parameter) (x : Z) : res Z :=
  res_bind (inner self) (λ v, Ok (Z.land v x)).
Definition __or__ (self : parameter) (x : Z) : res Z :=
  res_bind (inner self) (λ v, Ok (Z.lor v x)).
Definition __xor__ (self : parameter) (x : Z) : res Z :=
  res_bind (inner self) (λ v, Ok (Z.lxor v x)).
Definition __lshift__ (self : parameter) (x : Z) : res Z :=
  res_bind (inner self) (λ v, py_lshift v x).
Definition __rshift__ (self : parameter) (x : Z) : res Z :=
  res_bind (inner self) (λ v, py_rshift v x).
Definition __rand__ (self : parameter) (x : Z) : res Z :=
  res_bind (inner self) (λ v, Ok (Z.land x v)).
Definition __ror__ (self : parameter) (x : Z) : res Z :=
  res_bind (inner self) (λ v, Ok (Z.lor x v)).
Definition __rxor__ (self : parameter) (x : Z) : res Z :=
  res_bind (inner self) (λ v, Ok (Z.lxor x v)).
Definition __rlshift__ (self : parameter) (x : Z) : res Z :=
  res_bind (inner self) (λ v, py_lshift x v).
Definition __rrshift__ (self : parameter) (x : Z) : res Z :=
  res_bind (inner self) (λ v, py_rshift x v).


End Param.

(** ** class Model *)

(** [OrderedDict]: keys in insertion order.  Assigning to a key that is
    present replaces its value in place. *)
Definition odict (V : Type) := list (string * V).

Fixpoint odict_get {V} (k : string) (d : odict V) : option V :=
  match d with
  | [] => None
  | (k', v) :: d' => if decide (k = k') then Some v else odict_get k d'
  end.

Definition odict_mem {V} (k : string) (d : odict V) : bool :=
  match odict_get k d with Some _ => true | None => false end.

Fixpoint odict_set {V} (k : string) (v : V) (d : odict V) : odict V :=
  match d with
  | [] => [(k, v)]
  | (k', v') :: d' =>
      if decide (k = k') then (k', v) :: d' else (k', v') :: odict_set k v d'
  end.

Definition odict_keys {V} (d : odict V) : list string := d.*1.

(** One call received by the [_cache] hook: the instance, the [name]
    argument, and the value the named parameter holds at that moment. *)
Record hook_call := HookCall {
  hook_self : nat;
  hook_name : string;
  hook_sees : option pyval
}.

(** The state the methods of one concrete Model class act on.  [_params]
    and [_mapping] are class attributes: one mapping object for the class,
    with the Parameter objects in it mutated in place.  Instances are
    identified by a number and own only their [__dict__]. *)
Record world := World {
  cls_name : string;
  _params : odict parameter;
  _mapping : odict string;
  dicts : gmap nat (gmap string pyval);
  next_id : nat;
  cache_log : list hook_call
}.

Module Model.

(** The names class [Model] itself defines; they are found by the
    ordinary lookup on any instance.  The attributes every object inherits
    from [object] ([__class__], [__doc__], ...) are left out. *)
Definition class_attrs : list string :=
  ["_params"; "_mapping"; "__init__"; "__getattr__"; "__setattr__";
   "__str__"; "_getp"; "_setp"; "_cache"; "params"].

Definition inst_dict (self : nat) (w : world) : gmap string pyval :=
  default ∅ (dicts w !! self).

Definition with_params (w : world) (ps : odict parameter) : world :=
  World (cls_name w) ps (_mapping w) (dicts w) (next_id w) (cache_log w).
Definition with_dicts (w : world) (ds : gmap nat (gmap string pyval)) : world :=
  World (cls_name w) (_params w) (_mapping w) ds (next_id w) (cache_log w).
Definition with_log (w : world) (l : list hook_call) : world :=
  World (cls_name w) (_params w) (_mapping w) (dicts w) (next_id w) l.

(** [object.__getattribute__(self, name)]: the property [params] (a data
    descriptor) first, then the instance [__dict__], then the class. *)
Definition object_getattribute (self : nat) (name : string) (w : world)
  : res pyval :=
  if decide (name = "params") then Ok (VClassAttr "params")
  else match inst_dict self w !! name with
       | Some v => Ok v
       | None =>
           if bool_decide (name ∈ class_attrs) then Ok (VClassAttr name)
           else Raise (AttributeError name)
       end.

(** [object.__setattr__(self, name, value)]: [params] is a property
    without a setter; any other name is stored in the [__dict__].  The
    checks [object] makes for [__class__], [__dict__] and [__weakref__]
    are not modelled. *)
Definition object_setattr (self : nat) (name : string) (value : pyval)
    (w : world) : res unit * world :=
  if decide (name = "params") then (Raise (AttributeError "params"), w)
  else (Ok tt, with_dicts w (<[self := <[name := value]> (inst_dict self w)]> (dicts w))).

(** [return self._params[name].value] *)
Definition _getp (name : string) (w : world) : res pyval :=
  match odict_get name (_params w) with
  | Some p => Ok (match Param.value p with Some z => VNum z | None => VNone end)
  | None => Raise (KeyError name)
  end.

(** [_cache(self, name)].  The base method is [pass]; [cache_log] keeps
    what an overriding hook would be called with. *)
Definition _cache (self : nat) (name : string) (w : world) : res unit * world :=
  let sees := match _getp name w with Ok v => Some v | Raise _ => None end in
  (Ok tt, with_log w (cache_log w ++ [HookCall self name sees])).

(** [self._params[name].set_value(value); self._cache(name)] *)
Definition _setp (self : nat) (name : string) (value : pyval) (w : world)
  : res unit * world :=
  match odict_get name (_params w) with
  | None => (Raise (KeyError name), w)
  | Some p =>
      match Param.set_value p value with
      | Raise e => (Raise e, w)
      | Ok p' => _cache self name (with_params w (odict_set name p' (_params w)))
      end
  end.

Definition recursion_error : exn :=
  RuntimeError "maximum recursion depth exceeded".

(** [__getattr__]; [depth] is the number of nested calls the
    interpreter still allows. *)
Fixpoint __getattr__ (depth : nat) (self : nat) (name : string) (w : world)
  : res pyval :=
  match depth with
  | O => Raise recursion_error
  | S depth' =>
      match odict_get name (_mapping w) with
      | Some target => __getattr__ depth' self target w
      | None =>
          if odict_mem name (_params w) then _getp name w
          else object_getattribute self name w
      end
  end.

Fixpoint __setattr__ (depth : nat) (self : nat) (name : string) (value : pyval)
    (w : world) : res unit * world :=
  match depth with
  | O => (Raise recursion_error, w)
  | S depth' =>
      match odict_get name (_mapping w) with
      | Some target => __setattr__ depth' self target value w
      | None =>
          if odict_mem name (_params w) then _setp self name value w
          else object_setattr self name value w
      end
  end.

(** An attribute read [self.name]: the ordinary lookup, and
    [__getattr__] when that fails. *)
Definition getattr (depth : nat) (self : nat) (name : string) (w : world)
  : res pyval :=
  match object_getattribute self name w with
  | Ok v => Ok v
  | Raise _ => __getattr__ depth self name w
  end.

(** The loop of [__init__] over [params.items()], the keywords in the
    iteration order of the dict. *)
Fixpoint init_loop (depth : nat) (self : nat) (items : list (string * pyval))
    (w : world) : res unit * world :=
  match items with
  | [] => (Ok tt, w)
  | (param, value) :: rest =>
      match __getattr__ depth self param w with
      | Raise e => (Raise e, w)
      | Ok _ =>
          match __setattr__ depth self param value w with
          | (Raise e, w') => (Raise e, w')
          | (Ok _, w') => init_loop depth self rest w'
          end
      end
  end.

Definition __init__ (depth : nat) (self : nat) (kwargs : list (string * pyval))
    (w : world) : res unit * world :=
  match __setattr__ depth self "name" (VStr (cls_name w)) w with
  | (Raise e, w') => (Raise e, w')
  | (Ok _, w') => init_loop depth self kwargs w'
  end.

(** The constructor call [Model] with keywords: a new instance with an empty [__dict__], then
    [__init__].  The new instance's number is returned on success. *)
Definition new (depth : nat) (kwargs : list (string * pyval)) (w : world)
  : res nat * world :=
  let self := next_id w in
  let w0 := World (cls_name w) (_params w) (_mapping w)
              (<[self := ∅]> (dicts w)) (S self) (cache_log w) in
  match __init__ depth self kwargs w0 with
  | (Raise e, w') => (Raise e, w')
  | (Ok _, w') => (Ok self, w')
  end.

Definition params (w : world) : odict parameter := _params w.

(** *** [__str__] *)









End Model.

(** ** Specification-level notions *)

(** The bounds relation of the data model: with bounds [(lo, hi)] the
    stored value is a number between them. *)
Definition within_bounds (p : parameter) : Prop :=
  match Param.bounds p with
  | None => True
  | Some (lo, hi) =>
      match Param.value p with
      | Some v => lo ≤ v ≤ hi
      | None => False
      end
  end.


(** The public mutators of a Parameter, and a run of them on an object. *)
Inductive mutation :=
| MSetValue (value : pyval)
| MSetBounds (bounds : option (Z * Z))
| MSet (value : pyval) (bounds : option (Z * Z)).

Definition mutate (p : parameter) (m : mutation) : res parameter :=
  match m with
  | MSetValue v => Param.set_value p v
  | MSetBounds b => Ok (Param.set_bounds p b)
  | MSet v b => Param.set p v b
  end.

Fixpoint mutate_all (p : parameter) (ms : list mutation) : res parameter :=
  match ms with
  | [] => Ok p
  | m :: ms' => res_bind (mutate p m) (λ p', mutate_all p' ms')
  end.

(** What a read or a write does once the name is no alias: the two last
    branches of [__getattr__] and of [__setattr__]. *)
Definition read_canonical (self : nat) (c : string) (w : world) : res pyval :=
  if odict_mem c (_params w) then Model._getp c w
  else Model.object_getattribute self c w.

Definition write_canonical (self : nat) (c : string) (value : pyval) (w : world)
  : res unit * world :=
  if odict_mem c (_params w) then Model._setp self c value w
  else Model.object_setattr self c value w.

(** [alias_chain m n name c]: following the alias mapping [m] from [name]
    takes [n] redirections and ends at [c], which is no alias. *)
Inductive alias_chain (m : odict string) : nat → string → string → Prop :=
| chain_end name :
    odict_get name m = None → alias_chain m 0 name name
| chain_hop n name target c :
    odict_get name m = Some target → alias_chain m n target c →
    alias_chain m (S n) name c.

(** Alias resolution as the specification words it, one level only: an
    alias is replaced by its target once, and the target is then looked up
    as it stands. *)
Definition one_hop (m : odict string) (name : string) : string :=
  default name (odict_get name m).

Definition getattr_one_hop (self : nat) (name : string) (w : world) : res pyval :=
  read_canonical self (one_hop (_mapping w) name) w.

Definition setattr_one_hop (self : nat) (name : string) (value : pyval) (w : world)
  : res unit * world :=
  write_canonical self (one_hop (_mapping w) name) value w.

(** The value a read of a parameter shows. *)
Definition shown (p : parameter) : pyval :=
  match Param.value p with Some z => VNum z | None => VNone end.

(** The class state with parameter [c] replaced by [p'] and one more hook
    call recorded. *)
Definition after_setp (self : nat) (c : string) (p' : parameter) (w : world) : world :=
  World (cls_name w) (odict_set c p' (_params w)) (_mapping w) (dicts w)
        (next_id w) (cache_log w ++ [HookCall self c (Some (shown p'))]).


(** The bounds a mutation brings along, if any. *)
Definition bounds_given (m : mutation) : option (Z * Z) :=
  match m with
  | MSetValue _ => None
  | MSetBounds b => b
  | MSet _ b => b
  end.

(** The bounds a run of mutations should leave: the last ones given. *)
Definition final_bounds (b0 : option (Z * Z)) (ms : list mutation) : option (Z * Z) :=
  fold_left (λ b m, match bounds_given m with Some b' => Some b' | None => b end) ms b0.

(** An argument that is a number, or a Parameter that wraps one. *)
Definition numeric_arg (x : pyval) : Prop :=
  match x with
  | VNum _ => True
  | VParam q => is_Some (Param.value q)
  | _ => False
  end.

(** A mutation whose value argument, when it is a Parameter, wraps a
    number. *)
Definition sound_mutation (m : mutation) : Prop :=
  match m with
  | MSetValue (VParam q) | MSet (VParam q) _ => is_Some (Param.value q)
  | _ => True
  end.

(** ** Small concrete classes *)

(** Aliases [a -> b -> c] over one declared parameter [c]. *)
Definition chain_class : world :=
  World "Chain" [("c", mkParameter (Some 7) None)] [("a", "b"); ("b", "c")] ∅ 0 [].

(** One declared parameter [x], no aliases. *)
Definition single_class : world :=
  World "Single" [("x", mkParameter (Some 0) (Some (0, 10)))] [] ∅ 0 [].


(** Two parameters and an alias, for the textual form. *)
Definition demo_class : world :=
  World "Demo"
        [("x", mkParameter (Some 0) (Some (0, 10)));
         ("richness", mkParameter (Some 1) None)]
        [("r", "richness")] ∅ 0 [].


(** Two aliases that point at each other. *)
Definition cycle_class : world :=
  World "Cycle" [("c", mkParameter (Some 1) None)] [("a", "b"); ("b", "a")] ∅ 0 [].

(** An alias whose target is declared nowhere. *)
Definition dangling_class : world :=
  World "Dangling" [("x", mkParameter (Some 0) None)] [("alias", "ghost")] ∅ 0 [].

(** The world after the ordinary attribute [c] of [self] was bound to
    [value]. *)
Definition after_object_setattr (self : nat) (c : string) (value : pyval)
    (w : world) : world :=
  Model.with_dicts w (<[self := <[c := value]> (Model.inst_dict self w)]> (dicts w)).

(** The three ways an attribute write can end: it raised, it went to a
    declared parameter, or it bound an ordinary attribute. *)
Inductive write_outcome (self : nat) (v : pyval) (w : world)
  : res unit → world → Prop :=
| write_raised e :
    write_outcome self v w (Raise e) w
| write_parameter c p p' :
    odict_get c (_params w) = Some p → Param.set_value p v = Ok p' →
    write_outcome self v w (Ok tt) (after_setp self c p' w)
| write_attribute c :
    odict_get c (_params w) = None → c ≠ "params" →
    write_outcome self v w (Ok tt) (after_object_setattr self c v w).

(** What stays fixed between two states of a class, seen from the
    instance [self] that acts: the declared names in their order, the
    bounds under every name, the aliases, the class name, and the
    attributes of all other instances. *)
Definition class_shape_kept (self : nat) (w w' : world) : Prop :=
  odict_keys (_params w') = odict_keys (_params w)
  ∧ (∀ k, Param.bounds <$> odict_get k (_params w')
          = Param.bounds <$> odict_get k (_params w))
  ∧ _mapping w' = _mapping w
  ∧ cls_name w' = cls_name w
  ∧ (∀ other, other ≠ self → Model.inst_dict other w' = Model.inst_dict other w).

(** A keyword that leads, within [depth] redirections, to a declared
    parameter. *)
Definition resolves_to_parameter (depth : nat) (w : world) (name : string) : Prop :=
  ∃ n c, alias_chain (_mapping w) n name c ∧ (n < depth)%nat
         ∧ is_Some (odict_get c (_params w)).

(** * Properties of Parameter *)

Section parameter_facts.

Implicit Types (p q : parameter) (v z lo hi : Z).










Lemma set_value_within p (x : pyval) p' :
  Param.set_value p x = Ok p' →
  within_bounds p' ∧ Param.bounds p' = Param.bounds p.
Proof.
  unfold Param.set_value, Param.check_bounds, within_bounds, Param.bounds, Param.value.
  intros H. destruct (__bounds__ p) as [[lo hi]|] eqn:Hb; simpl in H.
  - destruct (negb _) eqn:Hc; simpl in H.
    { destruct (Param.float_arg x); simpl in H; discriminate. }
    apply negb_false_iff, andb_true_iff in Hc as [Hlo Hhi].
    destruct x as [z|q|s| |n|z]; simplify_eq/=; split; try done.
    + apply Z.leb_le in Hlo, Hhi. lia.
    + destruct (__value__ q); [|done].
      apply Z.geb_le in Hlo. apply Z.leb_le in Hhi. lia.
  - destruct x; simplify_eq/=; by rewrite ?Hb.
Qed.

End parameter_facts.






(** C6 as stated fails: [set_bounds] stores new bounds without looking at
    the stored value.  A Parameter built with value 5 and bounds (0, 10),
    then given the bounds (20, 30), has gone through successful mutations
    only, has bounds, and holds a value outside them. *)
Lemma set_bounds_breaks_bounds_relation :
  ∃ p, mutate_all Param.blank [MSet (VNum 5) (Some (0, 10)); MSetBounds (Some (20, 30))]
       = Ok p
       ∧ Param.bounds p = Some (20, 30)
       ∧ Param.value p = Some 5
       ∧ ¬ within_bounds p.
Proof.
  exists (mkParameter (Some 5) (Some (20, 30))).
  repeat split. unfold within_bounds. simpl. lia.
Qed.

(** C6, amended.  After every successful construction, [set_value] or
    [set] (from any earlier state of the object), whenever the bounds are
    not [None] the stored value lies between them; and a run of mutations
    that ends with one of these leaves the object within its bounds. *)
Theorem bounds_relation_after_value_mutation :
  (∀ (x : pyval) b p, Param.__init__ x b = Ok p → within_bounds p)
  ∧ (∀ p (x : pyval) p', Param.set_value p x = Ok p' → within_bounds p')
  ∧ (∀ p (x : pyval) b p', Param.set p x b = Ok p' → within_bounds p')
  ∧ (∀ p ms m p', (∀ b, m ≠ MSetBounds b) →
       mutate_all p (ms ++ [m]) = Ok p' → within_bounds p').
Proof.
  assert (Hsv : ∀ p (x : pyval) p', Param.set_value p x = Ok p' → within_bounds p')
    by (intros p x p' H; by apply set_value_within in H as [? _]).
  repeat split.
  - intros x b p. unfold Param.__init__, Param.set. apply Hsv.
  - exact Hsv.
  - intros p x b p'. unfold Param.set. apply Hsv.
  - intros p ms. revert p. induction ms as [|m0 ms IH]; intros p m p' Hm; simpl.
    + destruct m as [x|b|x b]; simpl.
      * destruct (Param.set_value p x) as [p1|] eqn:E; simpl; [|done].
        intros [= <-]. by eapply Hsv.
      * by destruct (Hm b).
      * unfold Param.set. destruct (Param.set_value _ x) as [p1|] eqn:E; simpl; [|done].
        intros [= <-]. by eapply Hsv.
    + destruct (mutate p m0) as [p1|]; simpl; [|done]. by apply IH.
Qed.

Lemma bounds_relation_after_value_mutation_witness :
  within_bounds (mkParameter (Some 25) (Some (20, 30))).
Proof.
  destruct bounds_relation_after_value_mutation as (_ & _ & _ & Hrun).
  apply (Hrun Param.blank
           [MSet (VNum 5) (Some (0, 10)); MSetBounds (Some (20, 30))]
           (MSetValue (VNum 25))).
  - intros b. discriminate.
  - reflexivity.
Defined.

(** Every operator but [__cmp__] hands back what Python's own operation
    gives on the wrapped number and the operand. *)
Lemma operators_forward (v x : Z) (b : option (Z * Z)) :
  let p := mkParameter (Some v) b in
  Param.__eq__ p x = Ok (v =? x) ∧ Param.__ne__ p x = Ok (negb (v =? x))
  ∧ Param.__lt__ p x = Ok (v <? x) ∧ Param.__gt__ p x = Ok (v >? x)
  ∧ Param.__le__ p x = Ok (v <=? x) ∧ Param.__ge__ p x = Ok (v >=? x)
  ∧ Param.__pos__ p = Ok v ∧ Param.__neg__ p = Ok (- v)
  ∧ Param.__abs__ p = Ok (Z.abs v) ∧ Param.__invert__ p = Ok (Z.lnot v)
  ∧ Param.__add__ p x = Ok (v + x) ∧ Param.__radd__ p x = Ok (x + v)
  ∧ Param.__sub__ p x = Ok (v - x) ∧ Param.__rsub__ p x = Ok (x - v)
  ∧ Param.__mul__ p x = Ok (v * x) ∧ Param.__rmul__ p x = Ok (x * v)
  ∧ Param.__div__ p x = Param.py_floordiv v x
  ∧ Param.__rdiv__ p x = Param.py_floordiv x v
  ∧ Param.__floordiv__ p x = Param.py_floordiv v x
  ∧ Param.__rfloordiv__ p x = Param.py_floordiv x v
  ∧ Param.__mod__ p x = Param.py_mod v x ∧ Param.__rmod__ p x = Param.py_mod x v
  ∧ Param.__divmod__ p x = Param.py_divmod v x
  ∧ Param.__rdivmod__ p x = Param.py_divmod x v
  ∧ Param.__and__ p x = Ok (Z.land v x) ∧ Param.__rand__ p x = Ok (Z.land x v)
  ∧ Param.__or__ p x = Ok (Z.lor v x) ∧ Param.__ror__ p x = Ok (Z.lor x v)
  ∧ Param.__xor__ p x = Ok (Z.lxor v x) ∧ Param.__rxor__ p x = Ok (Z.lxor x v)
  ∧ Param.__lshift__ p x = Param.py_lshift v x
  ∧ Param.__rlshift__ p x = Param.py_lshift x v
  ∧ Param.__rshift__ p x = Param.py_rshift v x
  ∧ Param.__rrshift__ p x = Param.py_rshift x v.
Proof. repeat split. Qed.

Example operators_on_ten :
  let p := mkParameter (Some 10) None in
  Param.__add__ p 5 = Ok 15 ∧ Param.__radd__ p 5 = Ok 15
  ∧ Param.__lt__ p 20 = Ok true.
Proof. repeat split. Qed.

(** [__cmp__] agrees with Python's three-way comparison whenever the two
    numbers are equal or the wrapped one is the larger, positive one. *)
Lemma cmp_agrees_when (v x : Z) (b : option (Z * Z)) :
  v = x ∨ (x < v ∧ 0 < v) ∨ (v < x ∧ v ≤ 0) →
  Param.__cmp__ (mkParameter (Some v) b) x = Ok (Param.py_cmp v x).
Proof.
  intros H. unfold Param.__cmp__, Param.py_cmp. simpl.
  destruct (v =? x) eqn:E; [done|]. apply Z.eqb_neq in E.
  destruct (v >? 0) eqn:E0; destruct (v >? x) eqn:Ex; try done;
    rewrite Z.gtb_ltb in E0, Ex;
    [apply Z.ltb_lt in E0; apply Z.ltb_ge in Ex
    |apply Z.ltb_ge in E0; apply Z.ltb_lt in Ex]; lia.
Qed.

(** C9: the three-way comparison [__cmp__] tests the wrapped number against
    [0] where it should test it against the operand: for a Parameter
    wrapping 5, [__cmp__(10)] is [1], and Python's [cmp(5, 10)] is [-1].
    The Parameter itself is a value the method only reads. *)
Theorem cmp_compares_with_zero :
  Param.__cmp__ (mkParameter (Some 5) None) 10 = Ok 1
  ∧ Param.py_cmp 5 10 = -1
  ∧ Param.__lt__ (mkParameter (Some 5) None) 10 = Ok true.
Proof. repeat split. Qed.

(** * Properties of Model *)

Section odict_facts.
Context {V : Type}.
Implicit Types (d : odict V) (k : string).

Lemma odict_mem_true k d v : odict_get k d = Some v → odict_mem k d = true.
Proof. unfold odict_mem. by intros ->. Qed.

Lemma odict_mem_false k d : odict_get k d = None → odict_mem k d = false.
Proof. unfold odict_mem. by intros ->. Qed.

Lemma odict_get_set_eq k v d : odict_get k (odict_set k v d) = Some v.
Proof.
  induction d as [|[k' v'] d IH]; simpl.
  - by rewrite decide_True.
  - destruct (decide (k = k')) as [->|Hne]; simpl.
    + by rewrite decide_True.
    + by rewrite decide_False.
Qed.

Lemma odict_get_set_ne k k' v d :
  k ≠ k' → odict_get k' (odict_set k v d) = odict_get k' d.
Proof.
  intros Hne. induction d as [|[k0 v0] d IH]; simpl.
  - by rewrite decide_False.
  - destruct (decide (k = k0)) as [->|Hne0]; simpl.
    + by rewrite !decide_False.
    + by rewrite IH.
Qed.
End odict_facts.

Section model_facts.

Implicit Types (w : world) (self depth : nat) (name c : string) (v : pyval).

Lemma getattr_unfold depth self name w :
  Model.__getattr__ (S depth) self name w =
  match odict_get name (_mapping w) with
  | Some target => Model.__getattr__ depth self target w
  | None => read_canonical self name w
  end.
Proof. reflexivity. Qed.

Lemma setattr_unfold depth self name v w :
  Model.__setattr__ (S depth) self name v w =
  match odict_get name (_mapping w) with
  | Some target => Model.__setattr__ depth self target v w
  | None => write_canonical self name v w
  end.
Proof. reflexivity. Qed.

(** Reads and writes follow an alias chain to its end, given the depth
    for it. *)
Lemma getattr_follows_chain w n name c :
  alias_chain (_mapping w) n name c →
  ∀ depth self, (n < depth)%nat →
    Model.__getattr__ depth self name w = read_canonical self c w.
Proof.
  induction 1 as [name Hend | n name target c Hhop _ IH]; intros depth self Hd;
    (destruct depth as [|depth]; [lia|]); rewrite getattr_unfold.
  - by rewrite Hend.
  - rewrite Hhop. apply IH. lia.
Qed.

Lemma setattr_follows_chain w n name c :
  alias_chain (_mapping w) n name c →
  ∀ depth self v, (n < depth)%nat →
    Model.__setattr__ depth self name v w = write_canonical self c v w.
Proof.
  induction 1 as [name Hend | n name target c Hhop _ IH]; intros depth self v Hd;
    (destruct depth as [|depth]; [lia|]); rewrite setattr_unfold.
  - by rewrite Hend.
  - rewrite Hhop. apply IH. lia.
Qed.

(** A cycle of aliases exhausts any depth. *)
Lemma getattr_alias_cycle depth self name w :
  odict_get name (_mapping w) = Some name →
  Model.__getattr__ depth self name w = Raise Model.recursion_error.
Proof.
  intros Hself. induction depth as [|depth IH]; [done|].
  by rewrite getattr_unfold, Hself.
Qed.

Lemma setp_declared self c v w p :
  odict_get c (_params w) = Some p →
  Model._setp self c v w =
  match Param.set_value p v with
  | Ok p' => (Ok tt, after_setp self c p' w)
  | Raise e => (Raise e, w)
  end.
Proof.
  intros Hc. unfold Model._setp. rewrite Hc.
  destruct (Param.set_value p v) as [p'|e]; [|done].
  unfold Model._cache, Model._getp, after_setp, Model.with_log, Model.with_params, shown.
  simpl. by rewrite odict_get_set_eq.
Qed.

Lemma getp_declared c w p :
  odict_get c (_params w) = Some p → Model._getp c w = Ok (shown p).
Proof. unfold Model._getp. by intros ->. Qed.

End model_facts.

(** C2 as stated fails: with aliases [a -> b -> c] and [c] a declared
    parameter, a read of [a] is carried through [b] to [c] and returns the
    value of [c], and a write to [a] sets [c]; resolving one level only
    would look [b] up as it stands and fail. *)
Lemma alias_chain_is_followed :
  Model.__getattr__ 3 0 "a" chain_class = Ok (VNum 7)
  ∧ getattr_one_hop 0 "a" chain_class = Raise (AttributeError "b")
  ∧ (Model.__setattr__ 3 0 "a" (VNum 9) chain_class).1 = Ok tt
  ∧ _params (Model.__setattr__ 3 0 "a" (VNum 9) chain_class).2
    = [("c", mkParameter (Some 9) None)]
  ∧ Model.__getattr__ 3 0 "a" chain_class ≠ getattr_one_hop 0 "a" chain_class.
Proof. repeat split; vm_compute; congruence. Qed.

(** C2, amended.  Alias resolution recurses: a read or a write of a name
    is redirected along the alias mapping until a name that is no alias is
    reached (a chain a -> b -> c is followed to c), and that last name is
    then treated as a parameter or an ordinary attribute.  Whenever the
    chain has at most one redirection, the result is that of one-level
    resolution. *)
Theorem alias_resolution_follows_chain (w : world) (n : nat) (name c : string)
    (depth self : nat) (v : pyval) :
  alias_chain (_mapping w) n name c → (n < depth)%nat →
  Model.__getattr__ depth self name w = read_canonical self c w
  ∧ Model.__setattr__ depth self name v w = write_canonical self c v w
  ∧ ((n ≤ 1)%nat →
     Model.__getattr__ depth self name w = getattr_one_hop self name w
     ∧ Model.__setattr__ depth self name v w = setattr_one_hop self name v w).
Proof.
  intros Hch Hd. split; [|split].
  - by eapply getattr_follows_chain.
  - by eapply setattr_follows_chain.
  - intros Hn.
    rewrite (getattr_follows_chain _ _ _ _ Hch _ self Hd).
    rewrite (setattr_follows_chain _ _ _ _ Hch _ self v Hd).
    unfold getattr_one_hop, setattr_one_hop, one_hop.
    inversion Hch as [? Hend | n' ? target ? Hhop Hrest]; subst.
    + by rewrite Hend.
    + rewrite Hhop. simpl.
      inversion Hrest; subst; [done | lia].
Qed.

Lemma alias_resolution_follows_chain_witness :
  Model.__getattr__ 3 0 "a" chain_class = read_canonical 0 "c" chain_class
  ∧ Model.__setattr__ 3 0 "a" (VNum 9) chain_class
    = write_canonical 0 "c" (VNum 9) chain_class.
Proof.
  assert (Hch : alias_chain (_mapping chain_class) 2 "a" "c").
  { apply chain_hop with "b"; [reflexivity|].
    apply chain_hop with "c"; [reflexivity|].
    apply chain_end. reflexivity. }
  destruct (alias_resolution_follows_chain chain_class 2 "a" "c" 3 0 (VNum 9) Hch)
    as (Hr & Hw & _); [lia|].
  split; assumption.
Defined.

Section constructor_facts.

Implicit Types (w : world) (self depth : nat) (name : string).



Lemma init_loop_cons depth self param (value : pyval) rest w :
  Model.init_loop depth self ((param, value) :: rest) w =
  match Model.__getattr__ depth self param w with
  | Raise e => (Raise e, w)
  | Ok _ =>
      match Model.__setattr__ depth self param value w with
      | (Raise e, w') => (Raise e, w')
      | (Ok _, w') => Model.init_loop depth self rest w'
      end
  end.
Proof. reflexivity. Qed.

End constructor_facts.




Section assignment_facts.

Implicit Types (w : world) (self depth n : nat) (name c : string) (v : pyval).

(** What a write to a name that resolves to the declared parameter [c]
    does, in one equation. *)
Lemma setattr_declared w n name c depth self v p :
  alias_chain (_mapping w) n name c → (n < depth)%nat →
  odict_get c (_params w) = Some p →
  Model.__setattr__ depth self name v w =
  match Param.set_value p v with
  | Ok p' => (Ok tt, after_setp self c p' w)
  | Raise e => (Raise e, w)
  end.
Proof.
  intros Hch Hd Hc. rewrite (setattr_follows_chain _ _ _ _ Hch _ self v Hd).
  unfold write_canonical. rewrite (odict_mem_true _ _ _ Hc).
  by apply setp_declared.
Qed.

Lemma getattr_declared w n name c depth self p :
  alias_chain (_mapping w) n name c → (n < depth)%nat →
  odict_get c (_params w) = Some p →
  Model.__getattr__ depth self name w = Ok (shown p).
Proof.
  intros Hch Hd Hc. rewrite (getattr_follows_chain _ _ _ _ Hch _ self Hd).
  unfold read_canonical. rewrite (odict_mem_true _ _ _ Hc).
  by apply getp_declared.
Qed.

(** The ordinary lookup fails only with the attribute error for the
    name asked, and looks at nothing but the instance and the class
    namespace. *)
Lemma object_getattribute_after_setp self m c p' name w :
  Model.object_getattribute m name (after_setp self c p' w)
  = Model.object_getattribute m name w.
Proof. reflexivity. Qed.

End assignment_facts.

(** C8. A write to a name that resolves, through the aliases, to the
    declared parameter [c] either succeeds, and then the new value is
    stored and the hook has been called exactly once more, with [c], at a
    moment when [c] already shows the new value; or it fails with the
    error of [set_value], and then nothing has changed and the hook has
    not been called.  The constructor's loop makes exactly this write for
    each keyword. *)
Theorem cache_hook_once_per_assignment (w : world) (n : nat) (name c : string)
    (depth self : nat) (v : pyval) (p : parameter) (rest : list (string * pyval)) :
  alias_chain (_mapping w) n name c → (n < depth)%nat →
  odict_get c (_params w) = Some p →
  match Param.set_value p v with
  | Ok p' =>
      ∃ w', Model.__setattr__ depth self name v w = (Ok tt, w')
            ∧ odict_get c (_params w') = Some p'
            ∧ cache_log w' = (cache_log w ++ [HookCall self c (Some (shown p'))])%list
            ∧ Model.init_loop depth self ((name, v) :: rest) w
              = Model.init_loop depth self rest w'
  | Raise e =>
      Model.__setattr__ depth self name v w = (Raise e, w)
      ∧ Model.init_loop depth self ((name, v) :: rest) w = (Raise e, w)
  end.
Proof.
  intros Hch Hd Hc.
  pose proof (setattr_declared w n name c depth self v p Hch Hd Hc) as Hset.
  pose proof (getattr_declared w n name c depth self p Hch Hd Hc) as Hget.
  destruct (Param.set_value p v) as [p'|e].
  - exists (after_setp self c p' w). split; [done|]. split; [|split].
    + simpl. apply odict_get_set_eq.
    + reflexivity.
    + simpl. by rewrite Hget, Hset.
  - split; [done|]. simpl. by rewrite Hget, Hset.
Qed.

Lemma cache_hook_once_per_assignment_witness :
  ∃ w', Model.__setattr__ 3 4 "a" (VNum 9) chain_class = (Ok tt, w')
        ∧ odict_get "c" (_params w') = Some (mkParameter (Some 9) None)
        ∧ cache_log w' = [HookCall 4 "c" (Some (VNum 9))].
Proof.
  assert (Hch : alias_chain (_mapping chain_class) 2 "a" "c").
  { apply chain_hop with "b"; [reflexivity|].
    apply chain_hop with "c"; [reflexivity|].
    apply chain_end. reflexivity. }
  pose proof (cache_hook_once_per_assignment chain_class 2 "a" "c" 3 4 (VNum 9)
                (mkParameter (Some 7) None) [] Hch) as H.
  simpl in H. destruct H as (w' & Hset & Hc & Hlog & _); [lia | reflexivity |].
  exists w'. split; [exact Hset|]. split; [exact Hc | exact Hlog].
Defined.

(** C10. The parameter mapping belongs to the class: after a successful
    assignment to a declared parameter through the instance [m1], the
    mapping seen through [params] holds the new Parameter, and a read of
    that name through any instance [m2] of the class returns the new
    value. *)
Theorem parameters_shared_between_instances (w : world) (n : nat) (name c : string)
    (depth m1 m2 : nat) (v : pyval) (p p' : parameter) :
  alias_chain (_mapping w) n name c → (n < depth)%nat →
  odict_get c (_params w) = Some p →
  Param.set_value p v = Ok p' →
  ∃ w', Model.__setattr__ depth m1 name v w = (Ok tt, w')
        ∧ odict_get c (Model.params w') = Some p'
        ∧ Model.__getattr__ depth m2 name w' = Ok (shown p')
        ∧ (Model.object_getattribute m2 name w = Raise (AttributeError name) →
           Model.getattr depth m2 name w' = Ok (shown p')).
Proof.
  intros Hch Hd Hc Hset. exists (after_setp m1 c p' w).
  assert (Hc' : odict_get c (_params (after_setp m1 c p' w)) = Some p')
    by (simpl; apply odict_get_set_eq).
  assert (Hget : Model.__getattr__ depth m2 name (after_setp m1 c p' w) = Ok (shown p'))
    by (by eapply getattr_declared).
  split; [|split; [|split]]; try done.
  - by rewrite (setattr_declared w n name c depth m1 v p Hch Hd Hc), Hset.
  - intros Hno. unfold Model.getattr.
    by rewrite object_getattribute_after_setp, Hno.
Qed.

Lemma parameters_shared_between_instances_witness :
  ∃ w', Model.__setattr__ 1 0 "x" (VNum 4) single_class = (Ok tt, w')
        ∧ Model.getattr 1 1 "x" w' = Ok (VNum 4).
Proof.
  destruct (parameters_shared_between_instances single_class 0 "x" "x" 1 0 1 (VNum 4)
              (mkParameter (Some 0) (Some (0, 10)))
              (mkParameter (Some 4) (Some (0, 10))))
    as (w' & Hset & _ & _ & Hread).
  - apply chain_end. reflexivity.
  - lia.
  - reflexivity.
  - reflexivity.
  - exists w'. split; [exact Hset|]. apply Hread. reflexivity.
Defined.




Section text_facts.

Implicit Types (s t u : string) (keys : list string) (width : nat).











End text_facts.




(** * Further properties of Parameter *)

Section parameter_composition.

Implicit Types (p q : parameter) (v z lo hi : Z) (x y : pyval).

(** [set_value] looks at nothing of the object but its bounds. *)
Lemma set_value_bounds_only p q x :
  Param.bounds p = Param.bounds q → Param.set_value p x = Param.set_value q x.
Proof.
  unfold Param.bounds, Param.set_value, Param.check_bounds. by intros ->.
Qed.

Lemma mutate_bounds p m p' :
  mutate p m = Ok p' →
  Param.bounds p' = match bounds_given m with
                    | Some b => Some b
                    | None => Param.bounds p
                    end.
Proof.
  destruct m as [x|b|x b]; simpl.
  - intros H. by apply set_value_within in H as [_ ?].
  - intros [= <-]. by destruct b.
  - unfold Param.set. intros H. apply set_value_within in H as [_ ->].
    by destruct b.
Qed.

Lemma mutate_keeps_number p m p' :
  is_Some (Param.value p) → sound_mutation m → mutate p m = Ok p' →
  is_Some (Param.value p').
Proof.
  intros Hp Hm. unfold Param.value in *.
  destruct m as [x|b|x b]; simpl; unfold Param.set, Param.set_value.
  - destruct (Param.check_bounds p x); simpl; [|done].
    destruct x; intros [= <-]; simpl; eauto.
  - intros [= <-]. by destruct b.
  - destruct (Param.check_bounds _ x); simpl; [|done].
    destruct x; intros [= <-]; simpl; eauto.
Qed.

End parameter_composition.

(** X1. A successful [set_value] changes the stored value only: whatever
    is assigned next is accepted or refused exactly as it would have been
    on the object before, so of two assignments in a row the second one
    alone decides the outcome. *)
Theorem set_value_last_write_wins (p p' : parameter) (x y : pyval) :
  Param.set_value p x = Ok p' →
  Param.set_value p' y = Param.set_value p y.
Proof.
  intros H. apply set_value_bounds_only. by apply set_value_within in H as [_ ?].
Qed.

Lemma set_value_last_write_wins_witness :
  Param.set_value (mkParameter (Some 3) (Some (0, 10))) (VNum 11)
  = Param.set_value (mkParameter (Some 0) (Some (0, 10))) (VNum 11).
Proof.
  apply (set_value_last_write_wins (mkParameter (Some 0) (Some (0, 10))) _ (VNum 3)).
  reflexivity.
Defined.

(** X2. Bounds cannot be taken away again: after a run of successful
    mutations the bounds are the last ones that were passed to
    [set_bounds] or [set] ([None] arguments not counting), or the initial
    ones when none was passed; so an object that has bounds keeps having
    bounds. *)
Theorem bounds_are_the_last_given (p p' : parameter) (ms : list mutation) :
  mutate_all p ms = Ok p' →
  Param.bounds p' = final_bounds (Param.bounds p) ms
  ∧ (is_Some (Param.bounds p) → is_Some (Param.bounds p')).
Proof.
  revert p. induction ms as [|m ms IH]; intros p; simpl.
  - intros [= <-]. done.
  - destruct (mutate p m) as [p1|] eqn:Hm; simpl; [|done].
    intros Hrest. destruct (IH _ Hrest) as [Hb Hsome].
    apply mutate_bounds in Hm. split.
    + unfold final_bounds in *. simpl. by rewrite Hb, Hm.
    + intros Hp. apply Hsome. rewrite Hm. by destruct (bounds_given m).
Qed.

Lemma bounds_are_the_last_given_witness :
  Param.bounds (mkParameter (Some 25) (Some (20, 30))) = Some (20, 30).
Proof.
  destruct (bounds_are_the_last_given Param.blank (mkParameter (Some 25) (Some (20, 30)))
              [MSet (VNum 5) (Some (0, 10)); MSetBounds (Some (20, 30));
               MSetBounds None; MSetValue (VNum 25)]) as [H _].
  - reflexivity.
  - exact H.
Defined.

(** X3. [set] with explicit bounds starts the object over: its outcome
    does not depend on the value or the bounds the object had, and is the
    outcome of constructing a new Parameter with these arguments. *)
Theorem set_with_bounds_starts_over (p q : parameter) (x : pyval) (b : Z * Z) :
  Param.set p x (Some b) = Param.set q x (Some b)
  ∧ Param.set p x (Some b) = Param.__init__ x (Some b).
Proof.
  split; unfold Param.__init__, Param.set; by apply set_value_bounds_only.
Qed.



(** X5. A Parameter always wraps a number: when every Parameter handed in
    as a value wraps a number itself, a successful construction followed
    by any run of successful mutations leaves an object whose value is a
    number, on which the operators find their operand. *)
Theorem constructed_parameter_wraps_number (x : pyval) (b : option (Z * Z))
    (ms : list mutation) (p p' : parameter) :
  numeric_arg x → Forall sound_mutation ms →
  Param.__init__ x b = Ok p → mutate_all p ms = Ok p' →
  ∃ z, Param.value p' = Some z ∧ Param.inner p' = Ok z.
Proof.
  intros Hx Hms Hinit Hrun.
  assert (Hp : is_Some (Param.value p)).
  { unfold Param.__init__, Param.set, Param.set_value in Hinit.
    destruct (Param.check_bounds _ x); simpl in Hinit; [|done].
    unfold Param.value. destruct x; simplify_eq/=; eauto. }
  assert (Hp' : is_Some (Param.value p')).
  { clear Hinit. revert p Hp Hrun. induction Hms as [|m ms Hm _ IH]; intros p Hp; simpl.
    - by intros [= <-].
    - destruct (mutate p m) as [p1|] eqn:E; simpl; [|done].
      apply IH. by eapply mutate_keeps_number. }
  destruct Hp' as [z Hz]. exists z. split; [done|].
  unfold Param.inner, Param.value in *. by rewrite Hz.
Qed.

Lemma constructed_parameter_wraps_number_witness :
  ∃ z, Param.value (mkParameter (Some 7) (Some (0, 10))) = Some z
       ∧ Param.inner (mkParameter (Some 7) (Some (0, 10))) = Ok z.
Proof.
  apply (constructed_parameter_wraps_number (VNum 5) (Some (0, 10))
           [MSetValue (VParam (mkParameter (Some 7) None))]
           (mkParameter (Some 5) (Some (0, 10)))).
  - exact I.
  - apply Forall_cons. split; [by exists 7 | apply Forall_nil_2].
  - reflexivity.
  - reflexivity.
Defined.

(** X6. Building a Parameter from another one takes over the number and
    nothing else: without a [bounds] argument the new object is unbounded
    whatever the bounds of the original were, and then accepts every
    number. *)
Theorem copy_drops_bounds (q : parameter) (z v : Z) :
  Param.value q = Some z →
  Param.__init__ (VParam q) None = Ok (mkParameter (Some z) None)
  ∧ Param.set_value (mkParameter (Some z) None) (VNum v)
    = Ok (mkParameter (Some v) None).
Proof.
  unfold Param.value. intros Hq. split; [|done].
  unfold Param.__init__, Param.set, Param.set_value. simpl. by rewrite Hq.
Qed.

Lemma copy_drops_bounds_witness :
  Param.__init__ (VParam (mkParameter (Some 5) (Some (0, 10)))) None
  = Ok (mkParameter (Some 5) None).
Proof.
  destruct (copy_drops_bounds (mkParameter (Some 5) (Some (0, 10))) 5 99) as [H _];
    [reflexivity | exact H].
Defined.


(** X8. The three-way [__cmp__] returns what Python's [cmp] returns on the
    wrapped number and the operand exactly in these cases: the two are
    equal, or the wrapped number is the larger one and positive, or it is
    the smaller one and not positive. *)
Theorem cmp_agrees_exactly_when (v x : Z) (b : option (Z * Z)) :
  Param.__cmp__ (mkParameter (Some v) b) x = Ok (Param.py_cmp v x)
  ↔ v = x ∨ (x < v ∧ 0 < v) ∨ (v < x ∧ v ≤ 0).
Proof.
  split; [|apply cmp_agrees_when].
  unfold Param.__cmp__, Param.py_cmp. simpl.
  destruct (v =? x) eqn:E; [apply Z.eqb_eq in E; by left|].
  apply Z.eqb_neq in E. rewrite !Z.gtb_ltb.
  destruct (Z.ltb_spec 0 v), (Z.ltb_spec x v); intros Hcmp; simplify_eq; right; lia.
Qed.

(** X9. Division by a Parameter's operand: with operand 0 the three
    division operators raise [ZeroDivisionError]; otherwise [divmod]
    returns the pair of [//] and [%], the quotient and remainder rebuild
    the wrapped number, and the remainder lies between 0 and the operand,
    on the operand's side. *)
Theorem division_operators (v x : Z) (b : option (Z * Z)) :
  let p := mkParameter (Some v) b in
  (x = 0 →
     Param.__floordiv__ p x = Raise ZeroDivisionError
     ∧ Param.__mod__ p x = Raise ZeroDivisionError
     ∧ Param.__divmod__ p x = Raise ZeroDivisionError)
  ∧ (x ≠ 0 →
     ∃ q r, Param.__divmod__ p x = Ok (q, r)
            ∧ Param.__floordiv__ p x = Ok q ∧ Param.__mod__ p x = Ok r
            ∧ v = x * q + r
            ∧ (0 < x → 0 ≤ r < x) ∧ (x < 0 → x < r ≤ 0)).
Proof.
  simpl. split.
  - by intros ->.
  - intros Hx. exists (v `div` x), (v `mod` x).
    unfold Param.__divmod__, Param.__floordiv__, Param.__mod__,
      Param.py_divmod, Param.py_floordiv, Param.py_mod. simpl.
    destruct (x =? 0) eqn:E; [by apply Z.eqb_eq in E|].
    repeat split; try done.
    + by apply Z.div_mod.
    + by apply Z.mod_pos_bound.
    + by apply Z.mod_pos_bound.
    + by apply Z.mod_neg_bound.
    + by apply Z.mod_neg_bound.
Qed.

Lemma division_operators_witness :
  Param.__divmod__ (mkParameter (Some (-7)) None) 0 = Raise ZeroDivisionError
  ∧ ∃ q r, Param.__divmod__ (mkParameter (Some (-7)) None) 2 = Ok (q, r)
           ∧ -7 = 2 * q + r ∧ 0 ≤ r < 2.
Proof.
  destruct (division_operators (-7) 0 None) as [Hz _].
  destruct (division_operators (-7) 2 None) as [_ Hn].
  split.
  - apply Hz. reflexivity.
  - destruct Hn as (q & r & Hd & _ & _ & Heq & Hpos & _); [lia|].
    exists q, r. split; [exact Hd|]. split; [exact Heq | apply Hpos; lia].
Defined.

(** X10. Shifts: a negative shift count raises [ValueError]; for a count
    [n >= 0] the left shift multiplies the wrapped number by [2^n], and
    shifting the result right by [n] gives the wrapped number back. *)
Theorem shift_operators (v n : Z) (b : option (Z * Z)) :
  let p := mkParameter (Some v) b in
  (n < 0 →
     Param.__lshift__ p n = Raise (ValueError NegativeShiftCount)
     ∧ Param.__rshift__ p n = Raise (ValueError NegativeShiftCount))
  ∧ (0 ≤ n →
     Param.__lshift__ p n = Ok (v * 2 ^ n)
     ∧ Param.__rshift__ (mkParameter (Some (v * 2 ^ n)) b) n = Ok v).
Proof.
  simpl. unfold Param.__lshift__, Param.__rshift__, Param.py_lshift, Param.py_rshift.
  simpl. split; intros Hn.
  - apply Z.ltb_lt in Hn. by rewrite Hn.
  - assert (Hge : (n <? 0) = false) by (by apply Z.ltb_ge).
    rewrite Hge. rewrite Z.shiftl_mul_pow2 by done. split; [done|].
    rewrite Z.shiftr_div_pow2 by done.
    rewrite Z.div_mul; [done|]. apply Z.pow_nonzero; lia.
Qed.

Lemma shift_operators_witness :
  Param.__lshift__ (mkParameter (Some 3) None) (-1) = Raise (ValueError NegativeShiftCount)
  ∧ Param.__lshift__ (mkParameter (Some 3) None) 4 = Ok (3 * 2 ^ 4).
Proof.
  destruct (shift_operators 3 (-1) None) as [Hneg _].
  destruct (shift_operators 3 4 None) as [_ Hpos].
  split; [apply Hneg; lia | apply Hpos; lia].
Defined.

(** X11. The reflected forms of the commutative operators give what the
    direct forms give, on every Parameter and operand; the reflected
    subtraction gives the opposite of the direct one. *)
Theorem reflected_operators (p : parameter) (x : Z) :
  Param.__radd__ p x = Param.__add__ p x
  ∧ Param.__rmul__ p x = Param.__mul__ p x
  ∧ Param.__rand__ p x = Param.__and__ p x
  ∧ Param.__ror__ p x = Param.__or__ p x
  ∧ Param.__rxor__ p x = Param.__xor__ p x
  ∧ Param.__rsub__ p x = res_bind (Param.__sub__ p x) (λ d, Ok (- d)).
Proof.
  unfold Param.__radd__, Param.__add__, Param.__rmul__, Param.__mul__,
    Param.__rand__, Param.__and__, Param.__ror__, Param.__or__,
    Param.__rxor__, Param.__xor__, Param.__rsub__, Param.__sub__.
  destruct (Param.inner p) as [v|e]; simpl; [|done].
  rewrite (Z.add_comm x v), (Z.mul_comm x v), (Z.land_comm x v),
    (Z.lor_comm x v), (Z.lxor_comm x v).
  repeat split. f_equal. lia.
Qed.


(** * Further properties of Model *)

Section write_outcomes.

Implicit Types (w : world) (self depth n : nat) (name c : string) (v : pyval).

Lemma setattr_outcome depth self name v w :
  write_outcome self v w (Model.__setattr__ depth self name v w).1
                         (Model.__setattr__ depth self name v w).2.
Proof.
  revert name. induction depth as [|depth IH]; intros name; [constructor|].
  rewrite setattr_unfold.
  destruct (odict_get name (_mapping w)) as [target|]; [apply IH|].
  unfold write_canonical, odict_mem.
  destruct (odict_get name (_params w)) as [p|] eqn:Hp.
  - rewrite (setp_declared _ _ _ _ _ Hp).
    destruct (Param.set_value p v) as [p'|e] eqn:Hs; simpl.
    + by eapply write_parameter.
    + constructor.
  - unfold Model.object_setattr. case_decide; simpl.
    + constructor.
    + by apply write_attribute.
Qed.

Lemma odict_keys_set {V} (k : string) (v v0 : V) (d : odict V) :
  odict_get k d = Some v0 → odict_keys (odict_set k v d) = odict_keys d.
Proof.
  unfold odict_keys. induction d as [|[k' v'] d IH]; [done|].
  cbn [odict_get odict_set]. destruct (decide (k = k')) as [->|Hne]; [done|].
  intros H. cbn [fmap list_fmap]. f_equal. by apply IH.
Qed.

Lemma odict_get_set_bounds k c p p' (d : odict parameter) :
  odict_get c d = Some p → Param.bounds p' = Param.bounds p →
  Param.bounds <$> odict_get k (odict_set c p' d) = Param.bounds <$> odict_get k d.
Proof.
  intros Hc Hb. destruct (decide (c = k)) as [->|Hne].
  - rewrite odict_get_set_eq, Hc. simpl. by rewrite Hb.
  - by rewrite odict_get_set_ne.
Qed.

Lemma inst_dict_after_object_setattr self other c v w :
  other ≠ self →
  Model.inst_dict other (after_object_setattr self c v w) = Model.inst_dict other w.
Proof.
  intros Hne. unfold Model.inst_dict, after_object_setattr. simpl.
  by rewrite lookup_insert_ne.
Qed.

End write_outcomes.



(** X13. No attribute write, successful or not, changes the shape of the
    class: the declared parameter names and their order, the bounds of
    every parameter, the alias mapping and the class name stay the same,
    and the attributes of the other instances are not touched. *)
Theorem write_keeps_class_shape (depth self : nat) (name : string)
    (v : pyval) (w : world) :
  let w' := (Model.__setattr__ depth self name v w).2 in
  odict_keys (_params w') = odict_keys (_params w)
  ∧ (∀ k, Param.bounds <$> odict_get k (_params w')
          = Param.bounds <$> odict_get k (_params w))
  ∧ _mapping w' = _mapping w
  ∧ cls_name w' = cls_name w
  ∧ (∀ other, other ≠ self → Model.inst_dict other w' = Model.inst_dict other w).
Proof.
  simpl. destruct (setattr_outcome depth self name v w) as [e | c p p' Hc Hs | c Hc Hne].
  - done.
  - simpl. repeat split; try done.
    + by eapply odict_keys_set.
    + intros k. eapply odict_get_set_bounds; [done|].
      by apply set_value_within in Hs as [_ ?].
  - repeat split; try done.
    intros other Hother. by apply inst_dict_after_object_setattr.
Qed.

(** X14. The hook is called at most once per attribute write, and only
    by a write that reached a declared parameter and succeeded: when the
    record of calls grows, it grows by one call, made for the writing
    instance and a declared parameter that now shows the recorded
    value. *)
Theorem hook_called_at_most_once (depth self : nat) (name : string)
    (v : pyval) (w : world) :
  let r := Model.__setattr__ depth self name v w in
  cache_log r.2 = cache_log w
  ∨ (r.1 = Ok tt
     ∧ ∃ c p', cache_log r.2 = (cache_log w ++ [HookCall self c (Some (shown p'))])%list
               ∧ odict_get c (_params r.2) = Some p').
Proof.
  simpl. destruct (setattr_outcome depth self name v w) as [e | c p p' Hc Hs | c Hc Hne].
  - by left.
  - right. split; [done|]. exists c, p'. split; [done|]. simpl.
    apply odict_get_set_eq.
  - by left.
Qed.

Section attribute_facts.

Implicit Types (w : world) (self depth n : nat) (name c : string) (v : pyval).

Lemma object_getattribute_written self c v w :
  c ≠ "params" →
  Model.object_getattribute self c (after_object_setattr self c v w) = Ok v.
Proof.
  intros Hc. unfold Model.object_getattribute. rewrite decide_False by done.
  unfold Model.inst_dict at 1, after_object_setattr. simpl.
  by rewrite lookup_insert_eq; simpl; rewrite lookup_insert_eq.
Qed.


Lemma setattr_undeclared w n name c depth self v :
  alias_chain (_mapping w) n name c → (n < depth)%nat →
  odict_get c (_params w) = None → c ≠ "params" →
  Model.__setattr__ depth self name v w = (Ok tt, after_object_setattr self c v w).
Proof.
  intros Hch Hd Hc Hne. rewrite (setattr_follows_chain _ _ _ _ Hch _ self v Hd).
  unfold write_canonical. rewrite (odict_mem_false _ _ Hc).
  unfold Model.object_setattr. by rewrite decide_False.
Qed.

Lemma getattr_undeclared w n name c depth self :
  alias_chain (_mapping w) n name c → (n < depth)%nat →
  odict_get c (_params w) = None →
  Model.__getattr__ depth self name w = Model.object_getattribute self c w.
Proof.
  intros Hch Hd Hc. rewrite (getattr_follows_chain _ _ _ _ Hch _ self Hd).
  unfold read_canonical. by rewrite (odict_mem_false _ _ Hc).
Qed.

(** Names that only lead to one another through the alias mapping. *)
Lemma alias_loop_read (P : string → Prop) w :
  (∀ a, P a → ∃ t, odict_get a (_mapping w) = Some t ∧ P t) →
  ∀ depth self name, P name →
    Model.__getattr__ depth self name w = Raise Model.recursion_error.
Proof.
  intros Hloop depth. induction depth as [|depth IH]; intros self name HP; [done|].
  destruct (Hloop name HP) as (t & Ht & HPt).
  rewrite getattr_unfold, Ht. by apply IH.
Qed.

Lemma alias_loop_write (P : string → Prop) w :
  (∀ a, P a → ∃ t, odict_get a (_mapping w) = Some t ∧ P t) →
  ∀ depth self name v, P name →
    Model.__setattr__ depth self name v w = (Raise Model.recursion_error, w).
Proof.
  intros Hloop depth. induction depth as [|depth IH]; intros self name v HP; [done|].
  destruct (Hloop name HP) as (t & Ht & HPt).
  rewrite setattr_unfold, Ht. by apply IH.
Qed.

End attribute_facts.

(** X15. A write changes at most the one parameter its name resolves to:
    when the name leads, through the aliases, to [c], every parameter
    other than [c] holds after the write what it held before. *)
Theorem write_leaves_other_parameters (w : world) (n : nat) (name c : string)
    (depth self : nat) (v : pyval) :
  alias_chain (_mapping w) n name c → (n < depth)%nat →
  ∀ k, k ≠ c →
    odict_get k (_params (Model.__setattr__ depth self name v w).2)
    = odict_get k (_params w).
Proof.
  intros Hch Hd k Hk. rewrite (setattr_follows_chain _ _ _ _ Hch _ self v Hd).
  unfold write_canonical, odict_mem.
  destruct (odict_get c (_params w)) as [p|] eqn:Hc.
  - rewrite (setp_declared _ _ _ _ _ Hc).
    destruct (Param.set_value p v); [|done]. simpl. by apply odict_get_set_ne.
  - unfold Model.object_setattr. by case_decide.
Qed.

Lemma write_leaves_other_parameters_witness :
  odict_get "x" (_params (Model.__setattr__ 2 0 "r" (VNum 3) demo_class).2)
  = odict_get "x" (_params demo_class).
Proof.
  apply (write_leaves_other_parameters demo_class 1 "r" "richness" 2 0 (VNum 3)).
  - apply chain_hop with "richness"; [reflexivity|]. apply chain_end. reflexivity.
  - lia.
  - discriminate.
Defined.



(** X17. Aliases that lead only to one another (an alias of itself, two
    aliases of each other, any loop) cannot be resolved: reading or
    writing such a name runs out of recursion depth, whatever the depth,
    and the write changes nothing. *)
Theorem alias_loop_exhausts_recursion (P : string → Prop) (w : world)
    (depth self : nat) (name : string) (v : pyval) :
  (∀ a, P a → ∃ t, odict_get a (_mapping w) = Some t ∧ P t) →
  P name →
  Model.__getattr__ depth self name w = Raise Model.recursion_error
  ∧ Model.__setattr__ depth self name v w = (Raise Model.recursion_error, w).
Proof.
  intros Hloop HP. split.
  - by eapply alias_loop_read.
  - by eapply alias_loop_write.
Qed.

Lemma alias_loop_exhausts_recursion_witness :
  Model.__getattr__ 1000 0 "a" cycle_class = Raise Model.recursion_error
  ∧ Model.__setattr__ 1000 0 "a" (VNum 2) cycle_class
    = (Raise Model.recursion_error, cycle_class).
Proof.
  apply (alias_loop_exhausts_recursion (λ a, a = "a" ∨ a = "b")).
  - intros a [-> | ->].
    + exists "b". split; [reflexivity | right; reflexivity].
    + exists "a". split; [reflexivity | left; reflexivity].
  - left. reflexivity.
Defined.

(** X18. An alias whose chain ends at a name that is neither a declared
    parameter nor an attribute of the instance fails on read with the
    attribute error for the name at the end of the chain, not for the
    alias; a constructor keyword of that name fails in the same way,
    before anything is assigned. *)
Theorem dangling_alias_names_target (w : world) (n : nat) (name c : string)
    (depth self : nat) (v : pyval) (rest : list (string * pyval)) :
  alias_chain (_mapping w) n name c → (n < depth)%nat →
  odict_get c (_params w) = None →
  Model.object_getattribute self c w = Raise (AttributeError c) →
  Model.__getattr__ depth self name w = Raise (AttributeError c)
  ∧ Model.init_loop depth self ((name, v) :: rest) w = (Raise (AttributeError c), w).
Proof.
  intros Hch Hd Hc Hno.
  assert (Hget : Model.__getattr__ depth self name w = Raise (AttributeError c))
    by (by rewrite (getattr_undeclared w n name c)).
  split; [done|]. by rewrite init_loop_cons, Hget.
Qed.

Lemma dangling_alias_names_target_witness :
  Model.__getattr__ 2 0 "alias" dangling_class = Raise (AttributeError "ghost")
  ∧ Model.init_loop 2 0 [("alias", VNum 1); ("x", VNum 2)] dangling_class
    = (Raise (AttributeError "ghost"), dangling_class).
Proof.
  apply (dangling_alias_names_target dangling_class 1 "alias" "ghost").
  - apply chain_hop with "ghost"; [reflexivity|]. apply chain_end. reflexivity.
  - lia.
  - reflexivity.
  - reflexivity.
Defined.

Section constructor_invariants.

Implicit Types (w : world) (self depth n : nat) (name c : string) (v : pyval).

Lemma class_shape_kept_refl self w : class_shape_kept self w w.
Proof. by repeat split. Qed.

Lemma class_shape_kept_trans self w1 w2 w3 :
  class_shape_kept self w1 w2 → class_shape_kept self w2 w3 →
  class_shape_kept self w1 w3.
Proof.
  intros (Hk & Hb & Hm & Hn & Ho) (Hk' & Hb' & Hm' & Hn' & Ho').
  repeat split.
  - by rewrite Hk'.
  - intros k. by rewrite Hb'.
  - by rewrite Hm'.
  - by rewrite Hn'.
  - intros other Hne. rewrite Ho' by done. by apply Ho.
Qed.

Lemma setattr_shape depth self name v w :
  class_shape_kept self w (Model.__setattr__ depth self name v w).2.
Proof.
  destruct (setattr_outcome depth self name v w) as [e | c p p' Hc Hs | c Hc Hne].
  - apply class_shape_kept_refl.
  - repeat split; try done; simpl.
    + by eapply odict_keys_set.
    + intros k. eapply odict_get_set_bounds; [done|].
      by apply set_value_within in Hs as [_ ?].
  - repeat split; try done.
    intros other Hother. by apply inst_dict_after_object_setattr.
Qed.

Lemma init_loop_shape depth self items w :
  class_shape_kept self w (Model.init_loop depth self items w).2.
Proof.
  revert w. induction items as [|[param value] items IH]; intros w.
  - apply class_shape_kept_refl.
  - rewrite init_loop_cons.
    destruct (Model.__getattr__ depth self param w); [|apply class_shape_kept_refl].
    pose proof (setattr_shape depth self param value w) as Hset.
    destruct (Model.__setattr__ depth self param value w) as [[[]|e] w1]; simpl in Hset.
    + eapply class_shape_kept_trans; [exact Hset | apply IH].
    + exact Hset.
Qed.

Lemma init_shape depth self kwargs w :
  class_shape_kept self w (Model.__init__ depth self kwargs w).2.
Proof.
  unfold Model.__init__.
  pose proof (setattr_shape depth self "name" (VStr (cls_name w)) w) as Hname.
  destruct (Model.__setattr__ depth self "name" (VStr (cls_name w)) w) as [[[]|e] w1];
    simpl in Hname; [|exact Hname].
  eapply class_shape_kept_trans; [exact Hname | apply init_loop_shape].
Qed.

Lemma is_Some_odict_get_set {V} (k c : string) (x : V) (d : odict V) :
  is_Some (odict_get k d) → is_Some (odict_get k (odict_set c x d)).
Proof.
  intros H. destruct (decide (c = k)) as [->|Hne].
  - rewrite odict_get_set_eq. by eexists.
  - by rewrite odict_get_set_ne.
Qed.

Lemma init_loop_hook_calls depth self items :
  ∀ w w', Forall (λ item, resolves_to_parameter depth w item.1) items →
    Model.init_loop depth self items w = (Ok tt, w') →
    ∃ calls, cache_log w' = (cache_log w ++ calls)%list
             ∧ Forall2 (λ item call,
                  hook_self call = self
                  ∧ ∃ n, alias_chain (_mapping w) n item.1 (hook_name call))
                 items calls.
Proof.
  induction items as [|[name v] items IH]; intros w w' Hall Hloop.
  - simpl in Hloop. injection Hloop as <-. exists []. split; [|constructor].
    by rewrite app_nil_r.
  - apply Forall_cons in Hall as [(n & c & Hch & Hd & [p Hc]) Hrest].
    rewrite init_loop_cons in Hloop. simpl in Hch.
    rewrite (getattr_declared w n name c depth self p Hch Hd Hc) in Hloop.
    rewrite (setattr_declared w n name c depth self v p Hch Hd Hc) in Hloop.
    destruct (Param.set_value p v) as [p'|e]; [|done].
    destruct (IH (after_setp self c p' w) w') as (calls & Hlog & Hcalls).
    + eapply Forall_impl; [exact Hrest|].
      intros item (n' & c' & Hch' & Hd' & Hc'). exists n', c'.
      split; [done|]. split; [done|]. simpl. by apply is_Some_odict_get_set.
    + exact Hloop.
    + exists (HookCall self c (Some (shown p')) :: calls). split.
      * rewrite Hlog. simpl. by rewrite <- app_assoc.
      * constructor; [|exact Hcalls]. split; [done|]. by exists n.
Qed.

End constructor_invariants.

(** X19. Construction, whether it succeeds or raises half-way, never
    changes the shape of the class: the declared parameter names and
    their order, the bounds of every parameter, the aliases and the class
    name are as before, and so are the attributes of the instances that
    existed already, provided none of them bears the number the new
    instance is given. *)
Theorem construction_keeps_class_shape (depth : nat)
    (kwargs : list (string * pyval)) (w : world) :
  let w' := (Model.new depth kwargs w).2 in
  odict_keys (_params w') = odict_keys (_params w)
  ∧ (∀ k, Param.bounds <$> odict_get k (_params w')
          = Param.bounds <$> odict_get k (_params w))
  ∧ _mapping w' = _mapping w
  ∧ cls_name w' = cls_name w
  ∧ (∀ other, other ≠ next_id w → Model.inst_dict other w' = Model.inst_dict other w).
Proof.
  simpl. unfold Model.new.
  set (w0 := World (cls_name w) (_params w) (_mapping w)
               (<[next_id w := ∅]> (dicts w)) (S (next_id w)) (cache_log w)).
  pose proof (init_shape depth (next_id w) kwargs w0) as (Hk & Hb & Hm & Hn & Ho).
  assert (Hw : (match Model.__init__ depth (next_id w) kwargs w0 with
                | (Raise e, w') => (Raise e, w')
                | (Ok _, w') => (Ok (next_id w), w')
                end).2 = (Model.__init__ depth (next_id w) kwargs w0).2).
  { by destruct (Model.__init__ depth (next_id w) kwargs w0) as [[[]|e] w1]. }
  rewrite Hw. repeat split; try done.
  intros other Hne. rewrite Ho by done.
  unfold Model.inst_dict, w0. simpl. by rewrite lookup_insert_ne.
Qed.

(** X20. Constructing with no keywords, in a class where [name] is neither
    an alias nor a parameter, always succeeds: the new instance reads its
    [name] as the class name, no parameter has changed and the hook has
    not been called. *)
Theorem bare_construction (depth : nat) (w : world) :
  (0 < depth)%nat →
  odict_get "name" (_mapping w) = None →
  odict_get "name" (_params w) = None →
  ∃ w', Model.new depth [] w = (Ok (next_id w), w')
        ∧ Model.getattr depth (next_id w) "name" w' = Ok (VStr (cls_name w))
        ∧ _params w' = _params w
        ∧ cache_log w' = cache_log w.
Proof.
  intros Hd Hnm Hnp. unfold Model.new, Model.__init__.
  set (self := next_id w).
  set (w0 := World (cls_name w) (_params w) (_mapping w)
               (<[self := ∅]> (dicts w)) (S self) (cache_log w)).
  assert (Hch : alias_chain (_mapping w0) 0 "name" "name") by (by apply chain_end).
  rewrite (setattr_undeclared w0 0 "name" "name" depth self _ Hch Hd Hnp); [|done].
  simpl. eexists. split; [done|]. split; [|done].
  unfold Model.getattr.
  by rewrite (object_getattribute_written self "name" (VStr (cls_name w)) w0).
Qed.

Lemma bare_construction_witness :
  ∃ w', Model.new 1 [] demo_class = (Ok 0%nat, w')
        ∧ Model.getattr 1 0 "name" w' = Ok (VStr "Demo").
Proof.
  destruct (bare_construction 1 demo_class) as (w' & Hnew & Hname & _);
    [lia | reflexivity | reflexivity |].
  exists w'. split; [exact Hnew | exact Hname].
Defined.

(** X21. When every keyword leads to a declared parameter, the loop of a
    successful construction calls the hook once per keyword, in the order
    in which the keywords are iterated, each time for the new instance and
    with the name the keyword resolves to. *)
Theorem construction_calls_hook_per_keyword (depth self : nat)
    (items : list (string * pyval)) (w w' : world) :
  Forall (λ item, resolves_to_parameter depth w item.1) items →
  Model.init_loop depth self items w = (Ok tt, w') →
  ∃ calls, cache_log w' = (cache_log w ++ calls)%list
           ∧ length calls = length items
           ∧ Forall2 (λ item call,
                hook_self call = self
                ∧ ∃ n, alias_chain (_mapping w) n item.1 (hook_name call))
               items calls.
Proof.
  intros Hall Hloop.
  destruct (init_loop_hook_calls depth self items w w' Hall Hloop) as (calls & Hlog & Hc).
  exists calls. split; [done|]. split; [|done].
  symmetry. by eapply Forall2_length.
Qed.

Lemma construction_calls_hook_per_keyword_witness :
  ∃ calls, cache_log (Model.init_loop 2 0 [("r", VNum 3); ("x", VNum 4)] demo_class).2
           = ([] ++ calls)%list
           ∧ length calls = 2%nat.
Proof.
  destruct (construction_calls_hook_per_keyword 2 0 [("r", VNum 3); ("x", VNum 4)]
              demo_class (Model.init_loop 2 0 [("r", VNum 3); ("x", VNum 4)] demo_class).2)
    as (calls & Hlog & Hlen & _).
  - apply Forall_cons. split.
    + exists 1%nat, "richness". split; [|split; [lia | by eexists]].
      apply chain_hop with "richness"; [reflexivity|]. apply chain_end. reflexivity.
    + apply Forall_cons. split; [|apply Forall_nil_2].
      exists 0%nat, "x". split; [|split; [lia | by eexists]].
      apply chain_end. reflexivity.
  - reflexivity.
  - exists calls. split; [exact Hlog | exact Hlen].
Defined.

(** X22. An alias is transparent: writing through a name that leads to
    [c] is the same as writing [c] itself, and in every state of the
    class a read of the name returns what a read of [c] returns; so after
    a value has been set under either name, both names read it. *)
Theorem alias_is_transparent (w : world) (n : nat) (name c : string)
    (depth self : nat) (v : pyval) :
  alias_chain (_mapping w) n name c → (n < depth)%nat →
  Model.__setattr__ depth self name v w = Model.__setattr__ depth self c v w
  ∧ (∀ w2, _mapping w2 = _mapping w →
       Model.__getattr__ depth self name w2 = Model.__getattr__ depth self c w2)
  ∧ Model.__getattr__ depth self name (Model.__setattr__ depth self c v w).2
    = Model.__getattr__ depth self c (Model.__setattr__ depth self name v w).2.
Proof.
  intros Hch Hd.
  assert (Hend : odict_get c (_mapping w) = None).
  { clear Hd. induction Hch; auto. }
  assert (Hc : alias_chain (_mapping w) 0 c c) by (by apply chain_end).
  assert (Hw : Model.__setattr__ depth self name v w = Model.__setattr__ depth self c v w).
  { rewrite (setattr_follows_chain _ _ _ _ Hch _ self v Hd).
    rewrite (setattr_follows_chain _ _ _ _ Hc _ self v); [done | lia]. }
  assert (Hr : ∀ w2, _mapping w2 = _mapping w →
            Model.__getattr__ depth self name w2 = Model.__getattr__ depth self c w2).
  { intros w2 Hm.
    rewrite (getattr_follows_chain w2 n name c); [|by rewrite Hm|done].
    rewrite (getattr_follows_chain w2 0 c c); [done| |lia].
    apply chain_end. by rewrite Hm. }
  split; [done|]. split; [done|].
  rewrite Hw. apply Hr.
  by destruct (setattr_shape depth self c v w) as (_ & _ & ? & _).
Qed.

Lemma alias_is_transparent_witness :
  Model.__setattr__ 3 0 "a" (VNum 9) chain_class
  = Model.__setattr__ 3 0 "c" (VNum 9) chain_class.
Proof.
  destruct (alias_is_transparent chain_class 2 "a" "c" 3 0 (VNum 9)) as (H & _).
  - apply chain_hop with "b"; [reflexivity|].
    apply chain_hop with "c"; [reflexivity|].
    apply chain_end. reflexivity.
  - lia.
  - exact H.
Defined.

(** X23. A declared parameter that bears the name of something the class
    defines (a method, [_params], [params], ...) can be written but not
    read back: the write stores the value in the parameter, while an
    attribute read of that name on an instance that has no attribute of
    its own under it finds the class's object first and returns that. *)
Theorem class_attribute_hides_parameter (w : world) (depth self : nat)
    (x : string) (v : pyval) (p p' : parameter) :
  (0 < depth)%nat →
  x ∈ Model.class_attrs →
  odict_get x (_mapping w) = None →
  odict_get x (_params w) = Some p →
  Param.set_value p v = Ok p' →
  Model.inst_dict self w !! x = None →
  ∃ w', Model.__setattr__ depth self x v w = (Ok tt, w')
        ∧ odict_get x (Model.params w') = Some p'
        ∧ Model.getattr depth self x w' = Ok (VClassAttr x).
Proof.
  intros Hd Hx Hxm Hxp Hs Hdict. exists (after_setp self x p' w).
  assert (Hch : alias_chain (_mapping w) 0 x x) by (by apply chain_end).
  split; [|split].
  - by rewrite (setattr_declared w 0 x x depth self v p Hch Hd Hxp), Hs.
  - simpl. apply odict_get_set_eq.
  - unfold Model.getattr. rewrite object_getattribute_after_setp.
    unfold Model.object_getattribute. case_decide as Hp; [by subst|].
    rewrite Hdict. by rewrite bool_decide_eq_true_2.
Qed.

Lemma class_attribute_hides_parameter_witness :
  ∃ w', Model.__setattr__ 1 0 "_cache" (VNum 5)
          (World "Odd" [("_cache", mkParameter (Some 0) None)] [] ∅ 0 [])
        = (Ok tt, w')
        ∧ Model.getattr 1 0 "_cache" w' = Ok (VClassAttr "_cache").
Proof.
  destruct (class_attribute_hides_parameter
              (World "Odd" [("_cache", mkParameter (Some 0) None)] [] ∅ 0 [])
              1 0 "_cache" (VNum 5) (mkParameter (Some 0) None) (mkParameter (Some 5) None))
    as (w' & Hset & _ & Hget).
  - lia.
  - unfold Model.class_attrs. apply list_elem_of_In. simpl. tauto.
  - reflexivity.
  - reflexivity.
  - reflexivity.
  - reflexivity.
  - exists w'. split; [exact Hset | exact Hget].
Defined.
